(** * big3 Python SDK: [cli/python-sdk/big3/agent/team.py]

    A shallow embedding of the configuration models ([Model],
    [AgentConfig], [TeamConfig], [CreateTeamResponse], [AddAgentResponse])
    and of the two client functions [create_team] and [add_agent].

    The models are pydantic [BaseModel] classes; [config.model_dump()] in
    the source fixes pydantic v2.  Constructing an instance from keyword
    arguments is embedded as a function from the keyword mapping to
    either the list of error details of the raised [ValidationError] or
    the constructed record.
    The keyword values covered are [None], booleans, integers, strings,
    lists and string-keyed dictionaries; see [pyval].
    The client functions are embedded as functions from their arguments
    and the network to the outcome of the call, the local variable
    [headers] at that point, and the network afterwards. *)

From Stdlib Require Import ZArith Ascii String List.
From stdpp Require Import base option strings gmap.
Import ListNotations.

Local Open Scope string_scope.

(** ** Python values

    The values a JSON body decodes to, and the keyword arguments of the
    same kinds: [None], booleans, integers, strings, lists and
    string-keyed dictionaries of these.  Everything below that takes a
    keyword mapping speaks about such values only.  Other Python
    objects are not represented: [bytes] and [bytearray] (which a [str]
    field decodes), dictionaries with keys that are not strings (a
    [Dict[str, Any]] field reports such a key below the field), and
    instances of classes (a model field keeps an instance of its class
    as it is; an [Any] value may be any object). *)

#[warnings="-register-all"]
Inductive pyval : Type :=
| PyNone
| PyBool (b : bool)
| PyInt (z : Z)
| PyStr (s : string)
| PyList (l : list pyval)
| PyDict (d : gmap string pyval).

(** ** pydantic validation errors *)

(** The [type] entry of an error detail. *)
Inductive ErrorType : Type :=
| missing        (* a required field has no value *)
| string_type    (* the value of a [str] field is not a string *)
| dict_type      (* the value of a [Dict] field is not a dictionary *)
| model_type.    (* the value of a model field is not a dictionary or instance *)

(** One entry of [ValidationError.errors()]: where and what. *)
Record ErrorDetail : Type := mkErr {
  loc : list string;
  type : ErrorType
}.

(** The outcome of a construction: the errors of the raised
    [ValidationError], or the value. *)
Abbreviation Validated A := (list ErrorDetail + A)%type.

(** Errors collected so far ([[]] for a field that validated). *)
Definition errors_of {A} (r : Validated A) : list ErrorDetail :=
  match r with inl es => es | inr _ => [] end.

(** Errors of a nested model are reported under the field's name. *)
Definition under (f : string) (es : list ErrorDetail) : list ErrorDetail :=
  map (fun e => mkErr (f :: loc e) (type e)) es.

(** *** Field validators

    [x: str = Field(...)]: required, and the value must be a string. *)
Definition required_str (kw : gmap string pyval) (f : string) : Validated string :=
  match kw !! f with
  | None => inl [mkErr [f] missing]
  | Some (PyStr s) => inr s
  | Some _ => inl [mkErr [f] string_type]
  end.

(** [x: Optional[str] = Field(None)]: default [None]; a value must be
    [None] or a string. *)
Definition optional_str (kw : gmap string pyval) (f : string) : Validated (option string) :=
  match kw !! f with
  | None => inr None
  | Some PyNone => inr None
  | Some (PyStr s) => inr (Some s)
  | Some _ => inl [mkErr [f] string_type]
  end.

(** [x: Optional[Dict[str, Any]] = Field(None)]: default [None]; a value
    must be [None] or a dictionary, whose values are unconstrained. *)
Definition optional_dict (kw : gmap string pyval) (f : string)
  : Validated (option (gmap string pyval)) :=
  match kw !! f with
  | None => inr None
  | Some PyNone => inr None
  | Some (PyDict d) => inr (Some d)
  | Some _ => inl [mkErr [f] dict_type]
  end.

(** ** The configuration and response models *)

(** [class Model(BaseModel)] *)
Record Model : Type := mkModel {
  Model_provider : string;
  Model_name : string;
  Model_version : option string;
  Model_parameters : option (gmap string pyval)
}.

(** [class AgentConfig(BaseModel)] *)
Record AgentConfig : Type := mkAgentConfig {
  AgentConfig_name : string;
  AgentConfig_model : Model;
  AgentConfig_instructions : option string
}.

(** [class TeamConfig(BaseModel)] *)
Record TeamConfig : Type := mkTeamConfig {
  TeamConfig_name : string;
  TeamConfig_description : option string
}.

(** [class CreateTeamResponse(BaseModel)] *)
Record CreateTeamResponse : Type := mkCreateTeamResponse {
  CreateTeamResponse_id : string;
  CreateTeamResponse_name : string;
  CreateTeamResponse_created_at : option string
}.

(** [class AddAgentResponse(BaseModel)] *)
Record AddAgentResponse : Type := mkAddAgentResponse {
  AddAgentResponse_id : string
}.

(** Constructing a [Model] from keywords [kw]: every declared field is
    validated, in declaration order, and all errors are reported
    together; undeclared keys are ignored. *)
Definition Model_validate (kw : gmap string pyval) : Validated Model :=
  match required_str kw "provider", required_str kw "name",
        optional_str kw "version", optional_dict kw "parameters" with
  | inr p, inr n, inr v, inr ps => inr (mkModel p n v ps)
  | rp, rn, rv, rps =>
      inl (errors_of rp ++ errors_of rn ++ errors_of rv ++ errors_of rps)%list
  end.

(** [model: Model = Field(...)]: required; a dictionary is validated as
    the keywords of a [Model] and its errors are located under the
    field; a value of another kind ([None], a boolean, an integer, a
    string, a list) is not a model. *)
Definition required_Model (kw : gmap string pyval) (f : string) : Validated Model :=
  match kw !! f with
  | None => inl [mkErr [f] missing]
  | Some (PyDict d) =>
      match Model_validate d with
      | inr m => inr m
      | inl es => inl (under f es)
      end
  | Some _ => inl [mkErr [f] model_type]
  end.

(** Constructing an [AgentConfig] from keywords [kw]. *)
Definition AgentConfig_validate (kw : gmap string pyval) : Validated AgentConfig :=
  match required_str kw "name", required_Model kw "model",
        optional_str kw "instructions" with
  | inr n, inr m, inr i => inr (mkAgentConfig n m i)
  | rn, rm, ri => inl (errors_of rn ++ errors_of rm ++ errors_of ri)%list
  end.

(** Constructing a [TeamConfig] from keywords [kw]. *)
Definition TeamConfig_validate (kw : gmap string pyval) : Validated TeamConfig :=
  match required_str kw "name", optional_str kw "description" with
  | inr n, inr d => inr (mkTeamConfig n d)
  | rn, rd => inl (errors_of rn ++ errors_of rd)%list
  end.

(** Constructing a [CreateTeamResponse] from keywords [kw]; [name: str]
    without a default is required as well. *)
Definition CreateTeamResponse_validate (kw : gmap string pyval)
  : Validated CreateTeamResponse :=
  match required_str kw "id", required_str kw "name",
        optional_str kw "created_at" with
  | inr i, inr n, inr c => inr (mkCreateTeamResponse i n c)
  | ri, rn, rc => inl (errors_of ri ++ errors_of rn ++ errors_of rc)%list
  end.

(** Constructing an [AddAgentResponse] from keywords [kw]. *)
Definition AddAgentResponse_validate (kw : gmap string pyval)
  : Validated AddAgentResponse :=
  match required_str kw "id" with
  | inr i => inr (mkAddAgentResponse i)
  | inl es => inl es
  end.

(** *** Serialization: [model_dump()]

    Every declared field appears, an unset optional field as [None]. *)
Definition dump_optional_str (o : option string) : pyval :=
  match o with
  | None => PyNone
  | Some s => PyStr s
  end.

Definition dump_optional_dict (o : option (gmap string pyval)) : pyval :=
  match o with
  | None => PyNone
  | Some d => PyDict d
  end.

Definition TeamConfig_model_dump (c : TeamConfig) : gmap string pyval :=
  <["description" := dump_optional_str (TeamConfig_description c)]>
    (<["name" := PyStr (TeamConfig_name c)]> ∅).

Definition Model_model_dump (m : Model) : gmap string pyval :=
  <["parameters" := dump_optional_dict (Model_parameters m)]>
    (<["version" := dump_optional_str (Model_version m)]>
      (<["name" := PyStr (Model_name m)]>
        (<["provider" := PyStr (Model_provider m)]> ∅))).

Definition AgentConfig_model_dump (c : AgentConfig) : gmap string pyval :=
  <["instructions" := dump_optional_str (AgentConfig_instructions c)]>
    (<["model" := PyDict (Model_model_dump (AgentConfig_model c))]>
      (<["name" := PyStr (AgentConfig_name c)]> ∅)).

(** ** Exceptions, the network and calls *)

(** The exception classes the source raises. *)
Inductive ExcClass : Type :=
| NotImplementedError.

(** A raised exception: its class and its message ([str(e)]). *)
Record PyExc : Type := mkExc {
  exc_class : ExcClass;
  exc_message : string
}.

(** The method resolution order of an exception class, by name:
    [NotImplementedError] is the built-in subclass of [RuntimeError]. *)
Definition mro (c : ExcClass) : list string :=
  match c with
  | NotImplementedError =>
      ["NotImplementedError"; "RuntimeError"; "Exception"; "BaseException"; "object"]
  end.

(** [isinstance(e, cls)], the test an [except cls:] clause performs. *)
Definition isinstance (e : PyExc) (cls : string) : bool :=
  bool_decide (cls ∈ mro (exc_class e)).

(** How a call ends. *)
Inductive Outcome (A : Type) : Type :=
| Returned (a : A)
| Raised (e : PyExc).
Arguments Returned {A} a.
Arguments Raised {A} e.

(** What [requests.post(url, json=..., headers=...)] puts on the wire. *)
Record Request : Type := mkRequest {
  req_method : string;
  req_url : string;
  req_json : gmap string pyval;
  req_headers : gmap string string
}.

(** [requests.Response]: the status and the decoded JSON body. *)
Record Response : Type := mkResponse {
  status_code : Z;
  resp_json : pyval
}.

(** The network as a call sees it: the server behind [base_url] and the
    requests issued so far, oldest first. *)
Record Network : Type := mkNetwork {
  server : Request -> Response;
  sent : list Request
}.

(** The local variables of [create_team] and [add_agent] other than the
    parameters, as the frame of the traceback shows them. *)
Record Frame : Type := mkFrame {
  headers : gmap string string
}.

(** A finished call: the outcome, the frame's locals when control left
    the function, and the network afterwards. *)
Record Run (A : Type) : Type := mkRun {
  outcome : Outcome A;
  f_locals : Frame;
  network : Network
}.
Arguments mkRun {A} _ _ _.
Arguments outcome {A} _.
Arguments f_locals {A} _.
Arguments network {A} _.

(** [raise e]: control leaves the function, the network is untouched. *)
Definition raise {A : Type} (e : PyExc) (fr : Frame) (net : Network) : Run A :=
  mkRun (Raised e) fr net.

(** [requests.post]: the one operation that issues a request.  The
    source names it only inside the text of the exception message. *)
Definition requests_post (url : string) (json : gmap string pyval)
    (hdrs : gmap string string) (net : Network) : Response * Network :=
  let rq := mkRequest "POST" url json hdrs in
  (server net rq, mkNetwork (server net) (sent net ++ [rq])%list).

(** *** Python string primitives *)

(** The line feed written [\n] in the source. *)
Definition LF : string := String "010"%char EmptyString.

(** Truth value of an [Optional[str]]: [None] and [''] are false. *)
Definition truthy (o : option string) : bool :=
  match o with
  | None => false
  | Some EmptyString => false
  | Some (String _ _) => true
  end.

(** A replacement field [{x}] of an f-string for an [Optional[str]]. *)
Definition fmt (o : option string) : string :=
  match o with
  | None => "None"
  | Some s => s
  end.

(** ** The client functions *)

(** [def create_team(base_url, config, api_key=None) -> str] *)
Definition create_team (base_url : string) (config : TeamConfig)
    (api_key : option string) (net : Network) : Run string :=
  let headers : gmap string string := ∅ in
  let headers :=
    if truthy api_key
    then <["Authorization" := "Bearer " +:+ fmt api_key]> headers
    else headers in
  (* Stub: POST /teams *)
  raise (mkExc NotImplementedError
           ("Python SDK scaffold only. Implement:" +:+
            LF +:+ "requests.post(f'" +:+ base_url +:+
            "/teams', json=config.model_dump(), headers=headers)"))
        (mkFrame headers) net.

(** [def add_agent(base_url, team_id, config, api_key=None) -> str].
    In the message [{{team_id}}] is an escaped brace pair, so the text
    [{team_id}] appears literally and [team_id] is not interpolated. *)
Definition add_agent (base_url : string) (team_id : string)
    (config : AgentConfig) (api_key : option string) (net : Network)
    : Run string :=
  let headers : gmap string string := ∅ in
  let headers :=
    if truthy api_key
    then <["Authorization" := "Bearer " +:+ fmt api_key]> headers
    else headers in
  (* Stub: POST /teams/{team_id}/agents *)
  raise (mkExc NotImplementedError
           ("Python SDK scaffold only. Implement:" +:+
            LF +:+ "requests.post(f'" +:+ base_url +:+
            "/teams/{team_id}/agents', json=config.model_dump(), headers=headers)"))
        (mkFrame headers) net.

(** ** The specification's reading of validation

    The specification speaks of fields that are present, absent and
    well-shaped.  These predicates follow its words and are compared
    with the validators above. *)

Definition is_str (v : pyval) : bool :=
  match v with PyStr _ => true | _ => false end.


Definition is_none (v : pyval) : bool :=
  match v with PyNone => true | _ => false end.

(** A required field is present and has the shape. *)
Definition present_as (shape : pyval -> bool) (kw : gmap string pyval)
    (f : string) : bool :=
  match kw !! f with
  | Some v => shape v
  | None => false
  end.

(** An optional field is absent, [None], or has the shape. *)
Definition absent_or (shape : pyval -> bool) (kw : gmap string pyval)
    (f : string) : bool :=
  match kw !! f with
  | Some v => is_none v || shape v
  | None => true
  end.








(** Construction succeeded. *)
Definition succeeds {A : Type} (r : Validated A) : bool :=
  match r with inr _ => true | inl _ => false end.

(** The set of vendor identifiers named by the description of
    [Model.provider]: [openai|anthropic|google]. *)
Definition recognized_providers : list string :=
  ["openai"; "anthropic"; "google"].

(** A response body decodes as the given response model. *)
Definition decodes_as {A : Type} (validate : gmap string pyval -> Validated A)
    (body : pyval) : bool :=
  match body with
  | PyDict d => succeeds (validate d)
  | _ => false
  end.

(** ** Concrete inputs used in the examples below *)

Definition localhost : string := "http://localhost:3000/api".

Definition ops_team : TeamConfig := mkTeamConfig "Ops" None.

Definition gpt4 : Model := mkModel "openai" "gpt-4" None None.

Definition helper_agent : AgentConfig := mkAgentConfig "helper" gpt4 None.

(** A server that answers every request with HTTP 201 and the body
    [{"id": "team_123", "name": "Ops"}]. *)
Definition created_body : gmap string pyval :=
  <["name" := PyStr "Ops"]> (<["id" := PyStr "team_123"]> ∅).

Definition net_created : Network :=
  mkNetwork (fun _ => mkResponse 201 (PyDict created_body)) [].

(** A server that answers every request with HTTP 404. *)
Definition net_not_found : Network :=
  mkNetwork (fun _ => mkResponse 404 (PyDict (<["detail" := PyStr "Not Found"]> ∅))) [].

(** A server whose body lacks the [id] field. *)
Definition net_no_id : Network :=
  mkNetwork (fun _ => mkResponse 201 (PyDict (<["name" := PyStr "Ops"]> ∅))) [].

(** Keyword arguments of [TeamConfig(name="Ops", description=[])]. *)
Definition kw_team_bad_description : gmap string pyval :=
  <["description" := PyList []]> (<["name" := PyStr "Ops"]> ∅).

(** Keyword arguments of [Model(provider="openai", name="gpt-4")]. *)
Definition kw_gpt4 : gmap string pyval :=
  <["name" := PyStr "gpt-4"]> (<["provider" := PyStr "openai"]> ∅).

(** Keyword arguments of [AgentConfig(name='', model={...})], the model
    given as the dictionary [kw_gpt4]. *)
Definition kw_agent_empty_name : gmap string pyval :=
  <["model" := PyDict kw_gpt4]> (<["name" := PyStr EmptyString]> ∅).

(** Keyword arguments of [AgentConfig(name="helper")]. *)
Definition kw_agent_no_model : gmap string pyval :=
  <["name" := PyStr "helper"]> ∅.

(** Keyword arguments of [Model(provider="acme", name="x")]. *)
Definition kw_model_acme : gmap string pyval :=
  <["name" := PyStr "x"]> (<["provider" := PyStr "acme"]> ∅).

(** ** Declared fields

    The field names each class declares, in declaration order
    ([model_fields]). *)

Definition Model_fields : list string :=
  ["provider"; "name"; "version"; "parameters"].

Definition AgentConfig_fields : list string :=
  ["name"; "model"; "instructions"].

Definition TeamConfig_fields : list string :=
  ["name"; "description"].

Definition CreateTeamResponse_fields : list string :=
  ["id"; "name"; "created_at"].

Definition AddAgentResponse_fields : list string :=
  ["id"].

(** What a keyword mapping holds for a field once defaults are applied:
    an absent key reads as [None]. *)
Definition with_default (kw : gmap string pyval) (f : string) : pyval :=
  match kw !! f with
  | Some v => v
  | None => PyNone
  end.

(** Keyword arguments of [Model(version="1")]: both required fields
    are missing. *)
Definition kw_model_only_version : gmap string pyval :=
  <["version" := PyStr "1"]> ∅.

(** Keyword arguments of
    [AgentConfig(name=3, model={"name": "gpt-4"}, instructions=4)]. *)
Definition kw_agent_all_wrong : gmap string pyval :=
  <["instructions" := PyInt 4]>
    (<["model" := PyDict (<["name" := PyStr "gpt-4"]> ∅)]>
      (<["name" := PyInt 3]> ∅)).

(** A response body with a timestamp. *)
Definition created_body_with_time : gmap string pyval :=
  <["created_at" := PyStr "2024-01-01T00:00:00Z"]> created_body.

(** * Properties *)

(** ** Validators against the specification's predicates *)

Section FieldValidators.
Variable kw : gmap string pyval.
Variable f : string.

Lemma required_str_succeeds :
  succeeds (required_str kw f) = present_as is_str kw f.
Proof.
  unfold required_str, present_as.
  destruct (kw !! f) as [[]|]; reflexivity.
Qed.

Lemma optional_str_succeeds :
  succeeds (optional_str kw f) = absent_or is_str kw f.
Proof.
  unfold optional_str, absent_or.
  destruct (kw !! f) as [[]|]; reflexivity.
Qed.


Lemma required_str_errors es :
  required_str kw f = inl es -> es <> [].
Proof.
  unfold required_str.
  destruct (kw !! f) as [[]|]; intros H; inversion H; discriminate.
Qed.

Lemma optional_str_errors es :
  optional_str kw f = inl es -> es <> [].
Proof.
  unfold optional_str.
  destruct (kw !! f) as [[]|]; intros H; inversion H; discriminate.
Qed.

Lemma optional_dict_errors es :
  optional_dict kw f = inl es -> es <> [].
Proof.
  unfold optional_dict.
  destruct (kw !! f) as [[]|]; intros H; inversion H; discriminate.
Qed.
End FieldValidators.

(** A failed field leaves at least one error in the collected list. *)
Ltac some_field_failed :=
  repeat match goal with
         | H : required_str _ _ = inl _ |- _ => apply required_str_errors in H
         | H : optional_str _ _ = inl _ |- _ => apply optional_str_errors in H
         | H : optional_dict _ _ = inl _ |- _ => apply optional_dict_errors in H
         end;
  simpl; rewrite ?app_nil_r;
  let Hnil := fresh "Hnil" in
  intros Hnil;
  repeat match type of Hnil with
         | (_ ++ _)%list = [] => apply app_eq_nil in Hnil as [? Hnil]
         end;
  congruence.


Lemma Model_validate_errors kw es :
  Model_validate kw = inl es -> es <> [].
Proof.
  unfold Model_validate.
  destruct (required_str kw "provider") eqn:E1,
           (required_str kw "name") eqn:E2,
           (optional_str kw "version") eqn:E3,
           (optional_dict kw "parameters") eqn:E4;
    intros H; inversion H; subst es; some_field_failed.
Qed.


Lemma required_Model_errors kw f es :
  required_Model kw f = inl es -> es <> [].
Proof.
  unfold required_Model.
  destruct (kw !! f) as [[]|]; intros H; inversion H; try discriminate.
  destruct (Model_validate d) as [es'|m] eqn:E; inversion H; subst es.
  apply Model_validate_errors in E.
  destruct es'; [congruence | discriminate].
Qed.

Lemma AgentConfig_validate_errors kw es :
  AgentConfig_validate kw = inl es -> es <> [].
Proof.
  unfold AgentConfig_validate.
  destruct (required_str kw "name") eqn:E1,
           (required_Model kw "model") eqn:E2,
           (optional_str kw "instructions") eqn:E3;
    intros H; inversion H; subst es;
    try apply required_Model_errors in E2; some_field_failed.
Qed.

Lemma TeamConfig_validate_errors kw es :
  TeamConfig_validate kw = inl es -> es <> [].
Proof.
  unfold TeamConfig_validate.
  destruct (required_str kw "name") eqn:E1,
           (optional_str kw "description") eqn:E2;
    intros H; inversion H; subst es; some_field_failed.
Qed.



(** ** The client functions are stubs *)

Lemma create_team_unfold base_url config api_key net :
  create_team base_url config api_key net
  = mkRun
      (Raised (mkExc NotImplementedError
         ("Python SDK scaffold only. Implement:" +:+
          LF +:+ "requests.post(f'" +:+ base_url +:+
          "/teams', json=config.model_dump(), headers=headers)")))
      (mkFrame (if truthy api_key
                then {["Authorization" := "Bearer " +:+ fmt api_key]}
                else ∅))
      net.
Proof.
  unfold create_team, raise. destruct (truthy api_key); reflexivity.
Qed.

Lemma add_agent_unfold base_url team_id config api_key net :
  add_agent base_url team_id config api_key net
  = mkRun
      (Raised (mkExc NotImplementedError
         ("Python SDK scaffold only. Implement:" +:+
          LF +:+ "requests.post(f'" +:+ base_url +:+
          "/teams/{team_id}/agents', json=config.model_dump(), headers=headers)")))
      (mkFrame (if truthy api_key
                then {["Authorization" := "Bearer " +:+ fmt api_key]}
                else ∅))
      net.
Proof.
  unfold add_agent, raise. destruct (truthy api_key); reflexivity.
Qed.

(** [NotImplementedError] is caught by none of the error kinds the
    specification names for the client. *)
Lemma NotImplementedError_not_client_error msg cls :
  cls ∈ ["TransportError"; "ApiError"; "NotFoundError"; "DecodeError";
         "ValidationError"] ->
  isinstance (mkExc NotImplementedError msg) cls = false.
Proof.
  intros Hin. unfold isinstance. simpl.
  repeat (apply elem_of_cons in Hin as [-> | Hin]; [reflexivity |]).
  inversion Hin.
Qed.

(** C1: for every [base_url], configuration and [api_key], [create_team]
    and [add_agent] raise [NotImplementedError], never return normally,
    and leave the network as it was: no request is issued. *)
Theorem C1_stubs_always_raise :
  forall (base_url team_id : string) (tc : TeamConfig) (ac : AgentConfig)
         (api_key : option string) (net : Network),
    let r1 := create_team base_url tc api_key net in
    let r2 := add_agent base_url team_id ac api_key net in
    (exists e, outcome r1 = Raised e /\ exc_class e = NotImplementedError) /\
    (forall v, outcome r1 <> Returned v) /\
    network r1 = net /\
    (exists e, outcome r2 = Raised e /\ exc_class e = NotImplementedError) /\
    (forall v, outcome r2 <> Returned v) /\
    network r2 = net.
Proof.
  intros base_url team_id tc ac api_key net r1 r2. subst r1 r2.
  rewrite create_team_unfold, add_agent_unfold. simpl.
  repeat split; eauto; discriminate.
Qed.

(** C2, as stated, fails: with a server that answers HTTP 201 and the
    body with id [team_123], [create_team] does not return [team_123]
    and no request reaches the server. *)
Lemma C2_counterexample :
  server net_created (mkRequest "POST" (localhost +:+ "/teams")
                        (TeamConfig_model_dump ops_team) ∅)
    = mkResponse 201 (PyDict created_body) /\
  decodes_as CreateTeamResponse_validate (PyDict created_body) = true /\
  outcome (create_team localhost ops_team None net_created)
    <> Returned "team_123" /\
  sent (network (create_team localhost ops_team None net_created)) = [].
Proof.
  repeat split. discriminate.
Qed.

(** C2, amended: for every [TeamConfig] and every server, [create_team]
    issues no request and returns no id; it raises [NotImplementedError]
    whose message spells out the call the implementer is to write,
    [requests.post(f'{base_url}/teams', json=config.model_dump(),
    headers=headers)], with [base_url] interpolated. *)
Theorem C2_create_team_names_intended_call :
  forall (base_url : string) (config : TeamConfig)
         (api_key : option string) (net : Network),
    let r := create_team base_url config api_key net in
    outcome r
      = Raised (mkExc NotImplementedError
          ("Python SDK scaffold only. Implement:" +:+ LF +:+
           "requests.post(f'" +:+ base_url +:+
           "/teams', json=config.model_dump(), headers=headers)")) /\
    (forall id, outcome r <> Returned id) /\
    sent (network r) = sent net.
Proof.
  intros base_url config api_key net r. subst r.
  rewrite create_team_unfold. simpl.
  repeat split; discriminate.
Qed.

(** ** Construction of the configuration models *)



(** C4, as stated, fails: [AgentConfig] with the empty string as [name]
    and a valid [model] is constructed. *)
Lemma C4_counterexample :
  kw_agent_empty_name !! "name" = Some (PyStr EmptyString) /\
  AgentConfig_validate kw_agent_empty_name
    = inr (mkAgentConfig EmptyString gpt4 None).
Proof.
  split; reflexivity.
Qed.

(** C4, amended: for every input in which the [model] field is missing,
    constructing an [AgentConfig] fails with a [ValidationError] that
    reports [model] as missing; an empty [name] is treated like any
    other string [name]: putting the empty string in place of a string
    [name] changes neither the errors reported nor whether
    construction succeeds, whatever the other keywords are. *)
Theorem C4_missing_model_rejected_empty_name_as_any_string :
  forall kw : gmap string pyval,
    (kw !! "model" = None ->
     exists es, AgentConfig_validate kw = inl es /\
                mkErr ["model"] missing ∈ es) /\
    (forall s,
       errors_of (AgentConfig_validate (<["name" := PyStr EmptyString]> kw))
       = errors_of (AgentConfig_validate (<["name" := PyStr s]> kw)) /\
       succeeds (AgentConfig_validate (<["name" := PyStr EmptyString]> kw))
       = succeeds (AgentConfig_validate (<["name" := PyStr s]> kw))).
Proof.
  intros kw. split.
  - intros Hm. unfold AgentConfig_validate, required_Model.
    rewrite Hm.
    destruct (required_str kw "name") as [e1|n],
             (optional_str kw "instructions") as [e3|i];
      eexists; (split; [reflexivity |]); simpl;
      rewrite ?elem_of_app, ?elem_of_cons; auto.
  - intros s.
    unfold AgentConfig_validate, required_str, required_Model, optional_str.
    rewrite !lookup_insert_eq, !lookup_insert_ne by discriminate.
    destruct (required_Model kw "model") as [em|m] eqn:Em;
      unfold required_Model in Em; rewrite Em;
      destruct (kw !! "instructions") as [[]|]; split; reflexivity.
Qed.

Lemma C4_missing_model_rejected_empty_name_as_any_string_witness :
  kw_agent_no_model !! "model" = None /\
  exists es, AgentConfig_validate kw_agent_no_model = inl es /\
             mkErr ["model"] missing ∈ es.
Proof.
  split; [reflexivity |].
  apply (proj1 (C4_missing_model_rejected_empty_name_as_any_string
                  kw_agent_no_model)).
  reflexivity.
Defined.

(** C5 on the code: [Model(provider="acme", name="x")] is constructed
    although [acme] is none of the vendors the description of
    [provider] names. *)
Theorem C5_unrecognized_provider_accepted :
  ("acme" ∉ recognized_providers) /\
  Model_validate kw_model_acme = inr (mkModel "acme" "x" None None).
Proof.
  split; [| reflexivity].
  unfold recognized_providers. intros Hin.
  repeat (apply elem_of_cons in Hin as [Heq | Hin]; [discriminate Heq |]).
  inversion Hin.
Qed.

(** ** Serialization of [TeamConfig] *)

(** C9: for every [TeamConfig], [model_dump()] yields an object whose
    keys are exactly the declared fields [name] and [description], and
    constructing a [TeamConfig] from that object gives back the
    original value. *)
Theorem C9_TeamConfig_round_trip :
  forall c : TeamConfig,
    dom (TeamConfig_model_dump c) = ({["name"; "description"]} : gset string) /\
    TeamConfig_validate (TeamConfig_model_dump c) = inr c.
Proof.
  intros [n d]. split.
  - unfold TeamConfig_model_dump. rewrite !dom_insert_L, dom_empty_L.
    set_solver.
  - unfold TeamConfig_validate, required_str, optional_str,
      TeamConfig_model_dump. simpl.
    rewrite lookup_insert_ne by discriminate.
    rewrite !lookup_insert_eq.
    destruct d; reflexivity.
Qed.

(** ** The [Authorization] header *)

(** C6: for every [base_url] and [config], [create_team] called with
    [api_key=None] builds headers without an [Authorization] entry
    (the mapping is empty), and called with [api_key="X"] builds exactly
    the one header [Authorization: Bearer X]; the same holds for every
    non-empty key in place of [X]. *)
Theorem C6_create_team_authorization_header :
  forall (base_url : string) (config : TeamConfig) (net : Network),
    let hdrs k := headers (f_locals (create_team base_url config k net)) in
    hdrs None = ∅ /\
    hdrs None !! "Authorization" = None /\
    hdrs (Some "X") = {["Authorization" := "Bearer X"]} /\
    (forall c k, hdrs (Some (String c k))
                 = {["Authorization" := "Bearer " +:+ String c k]}).
Proof.
  intros base_url config net hdrs. subst hdrs. simpl.
  repeat split.
Qed.

(** C10: for both [create_team] and [add_agent], the empty string as
    [api_key] is treated as [api_key=None]: it is falsy, no
    [Authorization] header is built, and the two calls build identical
    (empty) headers. *)
Theorem C10_empty_api_key_same_as_none :
  forall (base_url team_id : string) (tc : TeamConfig) (ac : AgentConfig)
         (net : Network),
    truthy (Some EmptyString) = truthy None /\
    headers (f_locals (create_team base_url tc (Some EmptyString) net))
      = headers (f_locals (create_team base_url tc None net)) /\
    headers (f_locals (create_team base_url tc (Some EmptyString) net))
      !! "Authorization" = None /\
    headers (f_locals (add_agent base_url team_id ac (Some EmptyString) net))
      = headers (f_locals (add_agent base_url team_id ac None net)) /\
    headers (f_locals (add_agent base_url team_id ac (Some EmptyString) net))
      !! "Authorization" = None.
Proof.
  intros. repeat split.
Qed.

(** ** Server errors and malformed responses *)

(** C7, as stated, fails: with a server that answers HTTP 404,
    [add_agent] for team [missing] raises an exception that is not a
    [NotFoundError], and the server is never asked. *)
Lemma C7_counterexample :
  let r := add_agent localhost "missing" helper_agent None net_not_found in
  (forall rq, status_code (server net_not_found rq) = 404%Z) /\
  ~ (exists e, outcome r = Raised e /\ isinstance e "NotFoundError" = true) /\
  sent (network r) = [].
Proof.
  simpl. repeat split.
  intros (e & He & Hinst). inversion He; subst e. discriminate Hinst.
Qed.

(** C7, amended: for every call to [add_agent], also when the server
    would report HTTP 404 for the given [team_id], the call fails with
    [NotImplementedError], which is neither a [NotFoundError] nor an
    [ApiError]; no request is issued, so no status is received. *)
Theorem C7_add_agent_raises_before_any_status :
  forall (base_url team_id : string) (config : AgentConfig)
         (api_key : option string) (net : Network),
    (forall rq, status_code (server net rq) = 404%Z) ->
    exists e,
      outcome (add_agent base_url team_id config api_key net) = Raised e /\
      exc_class e = NotImplementedError /\
      isinstance e "NotFoundError" = false /\
      isinstance e "ApiError" = false /\
      sent (network (add_agent base_url team_id config api_key net)) = sent net.
Proof.
  intros base_url team_id config api_key net _.
  rewrite add_agent_unfold. simpl.
  eexists. split; [reflexivity |].
  split; [reflexivity |].
  split; [| split; [| reflexivity]];
    apply NotImplementedError_not_client_error;
    rewrite !elem_of_cons; auto.
Qed.

Lemma C7_add_agent_raises_before_any_status_witness :
  (forall rq, status_code (server net_not_found rq) = 404%Z) /\
  exists e,
    outcome (add_agent localhost "missing" helper_agent None net_not_found)
      = Raised e /\
    exc_class e = NotImplementedError /\
    isinstance e "NotFoundError" = false /\
    isinstance e "ApiError" = false /\
    sent (network (add_agent localhost "missing" helper_agent None net_not_found))
      = sent net_not_found.
Proof.
  split.
  - intros rq. reflexivity.
  - apply (C7_add_agent_raises_before_any_status
             localhost "missing" helper_agent None net_not_found).
    intros rq. reflexivity.
Defined.

(** C8, as stated, fails: with a server whose body lacks [id],
    [create_team] and [add_agent] raise an exception that is not a
    [DecodeError]. *)
Lemma C8_counterexample :
  let r1 := create_team localhost ops_team None net_no_id in
  let r2 := add_agent localhost "team_123" helper_agent None net_no_id in
  (forall rq, decodes_as CreateTeamResponse_validate
                (resp_json (server net_no_id rq)) = false) /\
  (forall rq, decodes_as AddAgentResponse_validate
                (resp_json (server net_no_id rq)) = false) /\
  ~ (exists e, outcome r1 = Raised e /\ isinstance e "DecodeError" = true) /\
  ~ (exists e, outcome r2 = Raised e /\ isinstance e "DecodeError" = true).
Proof.
  simpl. repeat split;
    intros (e & He & Hinst); inversion He; subst e; discriminate Hinst.
Qed.

(** C8, amended: for every server whose response bodies do not match
    the expected response shape, [create_team] and [add_agent] fail
    with [NotImplementedError] (not a [DecodeError]: no response is
    received or decoded) and never return an identifier, null,
    placeholder or other. *)
Theorem C8_malformed_body_never_yields_id :
  forall (base_url team_id : string) (tc : TeamConfig) (ac : AgentConfig)
         (api_key : option string) (net : Network),
    (forall rq, decodes_as CreateTeamResponse_validate
                  (resp_json (server net rq)) = false) ->
    (forall rq, decodes_as AddAgentResponse_validate
                  (resp_json (server net rq)) = false) ->
    (exists e, outcome (create_team base_url tc api_key net) = Raised e /\
               exc_class e = NotImplementedError /\
               isinstance e "DecodeError" = false) /\
    (exists e, outcome (add_agent base_url team_id ac api_key net) = Raised e /\
               exc_class e = NotImplementedError /\
               isinstance e "DecodeError" = false) /\
    (forall id, outcome (create_team base_url tc api_key net) <> Returned id) /\
    (forall id, outcome (add_agent base_url team_id ac api_key net) <> Returned id).
Proof.
  intros base_url team_id tc ac api_key net _ _.
  rewrite create_team_unfold, add_agent_unfold. simpl.
  repeat split; try discriminate;
    eexists; (split; [reflexivity |]); split; reflexivity.
Qed.

Lemma C8_malformed_body_never_yields_id_witness :
  (forall rq, decodes_as CreateTeamResponse_validate
                (resp_json (server net_no_id rq)) = false) /\
  (forall rq, decodes_as AddAgentResponse_validate
                (resp_json (server net_no_id rq)) = false) /\
  (exists e, outcome (create_team localhost ops_team None net_no_id) = Raised e /\
             exc_class e = NotImplementedError /\
             isinstance e "DecodeError" = false) /\
  (exists e, outcome (add_agent localhost "team_123" helper_agent None net_no_id)
               = Raised e /\
             exc_class e = NotImplementedError /\
             isinstance e "DecodeError" = false) /\
  (forall id, outcome (create_team localhost ops_team None net_no_id)
              <> Returned id) /\
  (forall id, outcome (add_agent localhost "team_123" helper_agent None net_no_id)
              <> Returned id).
Proof.
  split; [intros rq; reflexivity |].
  split; [intros rq; reflexivity |].
  apply (C8_malformed_body_never_yields_id
           localhost "team_123" ops_team helper_agent None net_no_id);
    intros rq; reflexivity.
Defined.

(** * Further properties of the models *)

(** ** Field validators and the keyword mapping *)

Section FieldValidatorsAndKeys.
Variable kw : gmap string pyval.
Variables f k : string.
Variable v : pyval.
Hypothesis Hne : k <> f.

(** A validator reads its own key only. *)
Lemma required_str_insert_other :
  required_str (<[k := v]> kw) f = required_str kw f.
Proof. unfold required_str. rewrite lookup_insert_ne by exact Hne. reflexivity. Qed.

Lemma optional_str_insert_other :
  optional_str (<[k := v]> kw) f = optional_str kw f.
Proof. unfold optional_str. rewrite lookup_insert_ne by exact Hne. reflexivity. Qed.

Lemma optional_dict_insert_other :
  optional_dict (<[k := v]> kw) f = optional_dict kw f.
Proof. unfold optional_dict. rewrite lookup_insert_ne by exact Hne. reflexivity. Qed.

Lemma required_Model_insert_other :
  required_Model (<[k := v]> kw) f = required_Model kw f.
Proof. unfold required_Model. rewrite lookup_insert_ne by exact Hne. reflexivity. Qed.

Lemma required_str_delete_other :
  required_str (delete k kw) f = required_str kw f.
Proof. unfold required_str. rewrite lookup_delete_ne by exact Hne. reflexivity. Qed.

Lemma optional_str_delete_other :
  optional_str (delete k kw) f = optional_str kw f.
Proof. unfold optional_str. rewrite lookup_delete_ne by exact Hne. reflexivity. Qed.

Lemma optional_dict_delete_other :
  optional_dict (delete k kw) f = optional_dict kw f.
Proof. unfold optional_dict. rewrite lookup_delete_ne by exact Hne. reflexivity. Qed.

Lemma required_Model_delete_other :
  required_Model (delete k kw) f = required_Model kw f.
Proof. unfold required_Model. rewrite lookup_delete_ne by exact Hne. reflexivity. Qed.
End FieldValidatorsAndKeys.

(** An explicit [None] for an optional field is the default. *)
Lemma optional_str_None_is_absent (kw : gmap string pyval) f :
  optional_str (<[f := PyNone]> kw) f = optional_str (delete f kw) f.
Proof.
  unfold optional_str. rewrite lookup_insert_eq, lookup_delete_eq. reflexivity.
Qed.

Lemma optional_dict_None_is_absent (kw : gmap string pyval) f :
  optional_dict (<[f := PyNone]> kw) f = optional_dict (delete f kw) f.
Proof.
  unfold optional_dict. rewrite lookup_insert_eq, lookup_delete_eq. reflexivity.
Qed.

(** Not being one of the listed names, as inequalities. *)
Ltac split_not_in H :=
  repeat (apply not_elem_of_cons in H;
          let Hne := fresh "Hne" in destruct H as [Hne H]).

(** X1: undeclared keyword arguments are ignored: adding a key that is
    not a declared field changes the result of constructing neither a
    [TeamConfig], nor an [AgentConfig], nor a [Model]. *)
Theorem X1_undeclared_keys_ignored :
  forall (kw : gmap string pyval) (k : string) (v : pyval),
    (k ∉ TeamConfig_fields ->
     TeamConfig_validate (<[k := v]> kw) = TeamConfig_validate kw) /\
    (k ∉ AgentConfig_fields ->
     AgentConfig_validate (<[k := v]> kw) = AgentConfig_validate kw) /\
    (k ∉ Model_fields ->
     Model_validate (<[k := v]> kw) = Model_validate kw).
Proof.
  intros kw k v. repeat split; intros Hk; split_not_in Hk.
  - unfold TeamConfig_validate.
    rewrite required_str_insert_other, optional_str_insert_other by assumption.
    reflexivity.
  - unfold AgentConfig_validate.
    rewrite required_str_insert_other, required_Model_insert_other,
            optional_str_insert_other by assumption.
    reflexivity.
  - unfold Model_validate.
    rewrite !required_str_insert_other, optional_str_insert_other,
            optional_dict_insert_other by assumption.
    reflexivity.
Qed.

Lemma X1_undeclared_keys_ignored_witness :
  (("color" ∉ TeamConfig_fields) /\
   TeamConfig_validate (<["color" := PyStr "red"]> (<["name" := PyStr "Ops"]> ∅))
   = TeamConfig_validate (<["name" := PyStr "Ops"]> ∅)) /\
  (("color" ∉ AgentConfig_fields) /\
   AgentConfig_validate (<["color" := PyStr "red"]> kw_agent_empty_name)
   = AgentConfig_validate kw_agent_empty_name) /\
  (("color" ∉ Model_fields) /\
   Model_validate (<["color" := PyStr "red"]> kw_gpt4) = Model_validate kw_gpt4).
Proof.
  assert (Hnot : forall l : list string,
             bool_decide ("color" ∈ l) = false -> "color" ∉ l).
  { intros l Hl Hin. apply bool_decide_eq_false in Hl. contradiction. }
  split; [| split]; (split; [apply Hnot; reflexivity |]).
  - apply (proj1 (X1_undeclared_keys_ignored
                    (<["name" := PyStr "Ops"]> ∅) "color" (PyStr "red"))).
    apply Hnot; reflexivity.
  - apply (proj1 (proj2 (X1_undeclared_keys_ignored
                    kw_agent_empty_name "color" (PyStr "red")))).
    apply Hnot; reflexivity.
  - apply (proj2 (proj2 (X1_undeclared_keys_ignored
                    kw_gpt4 "color" (PyStr "red")))).
    apply Hnot; reflexivity.
Defined.

(** X2: for every optional field, passing [None] explicitly is the
    same as leaving the field out. *)
Theorem X2_explicit_None_is_default :
  forall kw : gmap string pyval,
    TeamConfig_validate (<["description" := PyNone]> kw)
      = TeamConfig_validate (delete "description" kw) /\
    AgentConfig_validate (<["instructions" := PyNone]> kw)
      = AgentConfig_validate (delete "instructions" kw) /\
    Model_validate (<["version" := PyNone]> kw)
      = Model_validate (delete "version" kw) /\
    Model_validate (<["parameters" := PyNone]> kw)
      = Model_validate (delete "parameters" kw).
Proof.
  intros kw. repeat split.
  - unfold TeamConfig_validate.
    rewrite optional_str_None_is_absent.
    rewrite required_str_insert_other, required_str_delete_other by discriminate.
    reflexivity.
  - unfold AgentConfig_validate.
    rewrite optional_str_None_is_absent.
    rewrite required_str_insert_other, required_str_delete_other,
            required_Model_insert_other, required_Model_delete_other
      by discriminate.
    reflexivity.
  - unfold Model_validate.
    rewrite optional_str_None_is_absent.
    rewrite !required_str_insert_other, !required_str_delete_other,
            optional_dict_insert_other, optional_dict_delete_other
      by discriminate.
    reflexivity.
  - unfold Model_validate.
    rewrite optional_dict_None_is_absent.
    rewrite !required_str_insert_other, !required_str_delete_other,
            optional_str_insert_other, optional_str_delete_other
      by discriminate.
    reflexivity.
Qed.

(** ** Round trips through [model_dump()] *)

(** Looking up a declared field in a dump; the keys are literals, so
    the comparisons compute. *)
Ltac lookup_dump :=
  repeat first
    [ rewrite lookup_insert_eq
    | rewrite lookup_insert_ne by discriminate ].

Lemma Model_validate_dump (m : Model) :
  Model_validate (Model_model_dump m) = inr m.
Proof.
  destruct m as [p n v ps].
  unfold Model_validate, required_str, optional_str, optional_dict,
    Model_model_dump. simpl.
  lookup_dump.
  destruct v, ps; reflexivity.
Qed.

Lemma required_Model_dump (kw : gmap string pyval) (f : string) (m : Model) :
  kw !! f = Some (PyDict (Model_model_dump m)) -> required_Model kw f = inr m.
Proof.
  intros H. unfold required_Model. rewrite H, Model_validate_dump. reflexivity.
Qed.

(** X3: for every [Model] whose fields hold values of their declared
    types, [parameters] being [None] or a dictionary of JSON values
    ([None], booleans, integers, strings, lists, string-keyed
    dictionaries of these), [model_dump()] has exactly the declared
    keys [provider], [name], [version] and [parameters], and
    constructing a [Model] from the dump gives back the original. *)
Theorem X3_Model_round_trip :
  forall m : Model,
    dom (Model_model_dump m) = list_to_set Model_fields /\
    Model_validate (Model_model_dump m) = inr m.
Proof.
  intros m. split; [| apply Model_validate_dump].
  unfold Model_model_dump, Model_fields.
  rewrite !dom_insert_L, dom_empty_L. simpl. set_solver.
Qed.

(** X4: for every [AgentConfig] whose fields hold values of their
    declared types, the [parameters] of its model being [None] or a
    dictionary of JSON values, [model_dump()] has exactly the keys
    [name], [model] and [instructions], the nested model is dumped as a
    dictionary, and constructing an [AgentConfig] from the dump gives
    back the original. *)
Theorem X4_AgentConfig_round_trip :
  forall c : AgentConfig,
    dom (AgentConfig_model_dump c) = list_to_set AgentConfig_fields /\
    AgentConfig_model_dump c !! "model"
      = Some (PyDict (Model_model_dump (AgentConfig_model c))) /\
    AgentConfig_validate (AgentConfig_model_dump c) = inr c.
Proof.
  intros [n m i]. split; [| split].
  - unfold AgentConfig_model_dump, AgentConfig_fields.
    rewrite !dom_insert_L, dom_empty_L. simpl. set_solver.
  - reflexivity.
  - unfold AgentConfig_validate.
    rewrite (required_Model_dump _ _ m) by reflexivity.
    unfold required_str, optional_str, AgentConfig_model_dump. simpl.
    lookup_dump.
    destruct i; reflexivity.
Qed.

(** ** Construction keeps the values it is given *)

Section FieldValues.
Variable kw : gmap string pyval.
Variable f : string.

Lemma required_str_value s :
  required_str kw f = inr s -> kw !! f = Some (PyStr s).
Proof.
  unfold required_str.
  destruct (kw !! f) as [[]|]; intros H; inversion H; reflexivity.
Qed.

Lemma optional_str_value o :
  optional_str kw f = inr o -> dump_optional_str o = with_default kw f.
Proof.
  unfold optional_str, with_default.
  destruct (kw !! f) as [[]|]; intros H; inversion H; reflexivity.
Qed.

(** What a field given as a string, as [None] or not at all, or as a
    dictionary, is stored as. *)
Lemma required_str_given s r :
  kw !! f = Some (PyStr s) -> required_str kw f = inr r -> r = s.
Proof.
  intros Hk Hr. apply required_str_value in Hr. congruence.
Qed.

Lemma optional_str_given s o :
  kw !! f = Some (PyStr s) -> optional_str kw f = inr o -> o = Some s.
Proof.
  intros Hk Hr. unfold optional_str in Hr. rewrite Hk in Hr. congruence.
Qed.

Lemma optional_str_not_given o :
  kw !! f = None \/ kw !! f = Some PyNone ->
  optional_str kw f = inr o -> o = None.
Proof.
  intros [Hk | Hk] Hr; unfold optional_str in Hr; rewrite Hk in Hr; congruence.
Qed.

Lemma optional_dict_given d o :
  kw !! f = Some (PyDict d) -> optional_dict kw f = inr o -> o = Some d.
Proof.
  intros Hk Hr. unfold optional_dict in Hr. rewrite Hk in Hr. congruence.
Qed.

Lemma optional_dict_not_given o :
  kw !! f = None \/ kw !! f = Some PyNone ->
  optional_dict kw f = inr o -> o = None.
Proof.
  intros [Hk | Hk] Hr; unfold optional_dict in Hr; rewrite Hk in Hr; congruence.
Qed.

Lemma required_Model_given d m :
  kw !! f = Some (PyDict d) -> required_Model kw f = inr m ->
  Model_validate d = inr m.
Proof.
  intros Hk Hr. unfold required_Model in Hr. rewrite Hk in Hr.
  destruct (Model_validate d); congruence.
Qed.
End FieldValues.

(** X5: a field given as a string is stored as that very string, an
    optional field given as [None] or left out is stored as [None],
    and [parameters] given as a dictionary of JSON values is stored
    with the same entries: this holds for every field of a constructed
    [TeamConfig] and of a constructed [Model], whatever the other
    keywords are. *)
Theorem X5_given_values_stored_unchanged :
  forall kw : gmap string pyval,
    (forall c, TeamConfig_validate kw = inr c ->
       (forall s, kw !! "name" = Some (PyStr s) -> TeamConfig_name c = s) /\
       (forall s, kw !! "description" = Some (PyStr s) ->
                  TeamConfig_description c = Some s) /\
       (kw !! "description" = None \/ kw !! "description" = Some PyNone ->
        TeamConfig_description c = None)) /\
    (forall m, Model_validate kw = inr m ->
       (forall s, kw !! "provider" = Some (PyStr s) -> Model_provider m = s) /\
       (forall s, kw !! "name" = Some (PyStr s) -> Model_name m = s) /\
       (forall s, kw !! "version" = Some (PyStr s) ->
                  Model_version m = Some s) /\
       (kw !! "version" = None \/ kw !! "version" = Some PyNone ->
        Model_version m = None) /\
       (forall d, kw !! "parameters" = Some (PyDict d) ->
                  Model_parameters m = Some d) /\
       (kw !! "parameters" = None \/ kw !! "parameters" = Some PyNone ->
        Model_parameters m = None)).
Proof.
  intros kw. split.
  - intros c. unfold TeamConfig_validate.
    destruct (required_str kw "name") eqn:E1,
             (optional_str kw "description") eqn:E2;
      intros H; inversion H; subst c; clear H. simpl.
    split; [| split].
    + intros s' Hk. exact (required_str_given _ _ _ _ Hk E1).
    + intros s' Hk. exact (optional_str_given _ _ _ _ Hk E2).
    + intros Hk. exact (optional_str_not_given _ _ _ Hk E2).
  - intros m. unfold Model_validate.
    destruct (required_str kw "provider") eqn:E1,
             (required_str kw "name") eqn:E2,
             (optional_str kw "version") eqn:E3,
             (optional_dict kw "parameters") eqn:E4;
      intros H; inversion H; subst m; clear H. simpl.
    split; [| split; [| split; [| split; [| split]]]].
    + intros s' Hk. exact (required_str_given _ _ _ _ Hk E1).
    + intros s' Hk. exact (required_str_given _ _ _ _ Hk E2).
    + intros s' Hk. exact (optional_str_given _ _ _ _ Hk E3).
    + intros Hk. exact (optional_str_not_given _ _ _ Hk E3).
    + intros d' Hk. exact (optional_dict_given _ _ _ _ Hk E4).
    + intros Hk. exact (optional_dict_not_given _ _ _ Hk E4).
Qed.

Lemma X5_given_values_stored_unchanged_witness :
  (TeamConfig_validate (<["name" := PyStr "Ops"]> ∅) = inr ops_team /\
   (<["name" := PyStr "Ops"]> ∅ : gmap string pyval) !! "name"
     = Some (PyStr "Ops") /\
   TeamConfig_name ops_team = "Ops") /\
  (Model_validate kw_gpt4 = inr gpt4 /\
   kw_gpt4 !! "provider" = Some (PyStr "openai") /\
   Model_provider gpt4 = "openai").
Proof.
  split; (split; [reflexivity |]); (split; [reflexivity |]).
  - refine (proj1 (proj1 (X5_given_values_stored_unchanged
                            (<["name" := PyStr "Ops"]> ∅)) ops_team _)
              "Ops" _); reflexivity.
  - refine (proj1 (proj2 (X5_given_values_stored_unchanged kw_gpt4) gpt4 _)
              "openai" _); reflexivity.
Defined.

(** X6: a constructed [AgentConfig] holds what it was given: a [name]
    given as a string is stored as that string, a [model] given as a
    dictionary is stored as the [Model] constructed from that
    dictionary, and [instructions] is the string given, or [None] when
    given as [None] or left out. *)
Theorem X6_AgentConfig_stores_given_values :
  forall (kw : gmap string pyval) (c : AgentConfig),
    AgentConfig_validate kw = inr c ->
    (forall s, kw !! "name" = Some (PyStr s) -> AgentConfig_name c = s) /\
    (forall d, kw !! "model" = Some (PyDict d) ->
               Model_validate d = inr (AgentConfig_model c)) /\
    (forall s, kw !! "instructions" = Some (PyStr s) ->
               AgentConfig_instructions c = Some s) /\
    (kw !! "instructions" = None \/ kw !! "instructions" = Some PyNone ->
     AgentConfig_instructions c = None).
Proof.
  intros kw c. unfold AgentConfig_validate.
  destruct (required_str kw "name") eqn:E1,
           (required_Model kw "model") eqn:E2,
           (optional_str kw "instructions") eqn:E3;
    intros H; inversion H; subst c; clear H. simpl.
  split; [| split; [| split]].
  - intros s' Hk. exact (required_str_given _ _ _ _ Hk E1).
  - intros d' Hk. exact (required_Model_given _ _ _ _ Hk E2).
  - intros s' Hk. exact (optional_str_given _ _ _ _ Hk E3).
  - intros Hk. exact (optional_str_not_given _ _ _ Hk E3).
Qed.

Lemma X6_AgentConfig_stores_given_values_witness :
  AgentConfig_validate kw_agent_empty_name
    = inr (mkAgentConfig EmptyString gpt4 None) /\
  kw_agent_empty_name !! "model" = Some (PyDict kw_gpt4) /\
  Model_validate kw_gpt4 = inr gpt4.
Proof.
  split; [reflexivity |]. split; [reflexivity |].
  refine (proj1 (proj2 (X6_AgentConfig_stores_given_values kw_agent_empty_name
                          (mkAgentConfig EmptyString gpt4 None) _))
            kw_gpt4 _); reflexivity.
Defined.

(** ** Which errors are reported, and where *)

(** The collected errors are those of the fields, in declaration
    order; a valid field contributes none. *)
Lemma Model_validate_errors_of kw :
  errors_of (Model_validate kw)
  = (errors_of (required_str kw "provider") ++ errors_of (required_str kw "name")
     ++ errors_of (optional_str kw "version")
     ++ errors_of (optional_dict kw "parameters"))%list.
Proof.
  unfold Model_validate.
  destruct (required_str kw "provider"), (required_str kw "name"),
           (optional_str kw "version"), (optional_dict kw "parameters");
    reflexivity.
Qed.

Lemma AgentConfig_validate_errors_of kw :
  errors_of (AgentConfig_validate kw)
  = (errors_of (required_str kw "name") ++ errors_of (required_Model kw "model")
     ++ errors_of (optional_str kw "instructions"))%list.
Proof.
  unfold AgentConfig_validate.
  destruct (required_str kw "name"), (required_Model kw "model"),
           (optional_str kw "instructions"); reflexivity.
Qed.

Lemma TeamConfig_validate_errors_of kw :
  errors_of (TeamConfig_validate kw)
  = (errors_of (required_str kw "name")
     ++ errors_of (optional_str kw "description"))%list.
Proof.
  unfold TeamConfig_validate.
  destruct (required_str kw "name"), (optional_str kw "description");
    reflexivity.
Qed.

Lemma CreateTeamResponse_validate_errors_of kw :
  errors_of (CreateTeamResponse_validate kw)
  = (errors_of (required_str kw "id") ++ errors_of (required_str kw "name")
     ++ errors_of (optional_str kw "created_at"))%list.
Proof.
  unfold CreateTeamResponse_validate.
  destruct (required_str kw "id"), (required_str kw "name"),
           (optional_str kw "created_at"); reflexivity.
Qed.

Lemma AddAgentResponse_validate_errors_of kw :
  errors_of (AddAgentResponse_validate kw) = errors_of (required_str kw "id").
Proof.
  unfold AddAgentResponse_validate.
  destruct (required_str kw "id"); reflexivity.
Qed.

Section ErrorLocations.
Variable kw : gmap string pyval.
Variable f : string.
Variable e : ErrorDetail.

Lemma required_str_loc : e ∈ errors_of (required_str kw f) -> loc e = [f].
Proof.
  unfold required_str.
  destruct (kw !! f) as [[]|]; simpl; intros H;
    try (apply list_elem_of_singleton in H; subst e; reflexivity);
    inversion H.
Qed.

Lemma optional_str_loc : e ∈ errors_of (optional_str kw f) -> loc e = [f].
Proof.
  unfold optional_str.
  destruct (kw !! f) as [[]|]; simpl; intros H;
    try (apply list_elem_of_singleton in H; subst e; reflexivity);
    inversion H.
Qed.

Lemma optional_dict_loc : e ∈ errors_of (optional_dict kw f) -> loc e = [f].
Proof.
  unfold optional_dict.
  destruct (kw !! f) as [[]|]; simpl; intros H;
    try (apply list_elem_of_singleton in H; subst e; reflexivity);
    inversion H.
Qed.

Lemma required_str_missing :
  kw !! f = None -> errors_of (required_str kw f) = [mkErr [f] missing].
Proof.
  intros H. unfold required_str. rewrite H. reflexivity.
Qed.
End ErrorLocations.

Lemma Model_validate_loc kw e :
  e ∈ errors_of (Model_validate kw) ->
  exists g, g ∈ Model_fields /\ loc e = [g].
Proof.
  rewrite Model_validate_errors_of, !elem_of_app.
  unfold Model_fields.
  intros [H | [H | [H | H]]];
    [ apply required_str_loc in H | apply required_str_loc in H
    | apply optional_str_loc in H | apply optional_dict_loc in H ];
    eexists; (split; [| exact H]);
    rewrite !elem_of_cons; auto.
Qed.

Lemma required_Model_loc kw f e :
  e ∈ errors_of (required_Model kw f) ->
  loc e = [f] \/ exists g, g ∈ Model_fields /\ loc e = [f; g].
Proof.
  unfold required_Model.
  destruct (kw !! f) as [[]|]; simpl; intros H;
    try (apply list_elem_of_singleton in H; subst e; left; reflexivity).
  destruct (Model_validate d) as [es|m] eqn:E; simpl in H; [| inversion H].
  unfold under in H. apply list_elem_of_In, in_map_iff in H.
  destruct H as (e' & <- & Hin). apply list_elem_of_In in Hin.
  right. simpl.
  destruct (Model_validate_loc d e') as (g & Hg & Hloc).
  { rewrite E. exact Hin. }
  exists g. split; [exact Hg | rewrite Hloc; reflexivity].
Qed.

(** X7: every error of a failed construction is located at or below a
    declared field: the first component of its location is a declared
    field of the class.  For the string fields (all fields but
    [Model.parameters] and [AgentConfig.model]) the location is exactly
    the field. *)
Theorem X7_errors_at_or_below_declared_fields :
  forall (kw : gmap string pyval) (e : ErrorDetail),
    (e ∈ errors_of (TeamConfig_validate kw) ->
     exists f, f ∈ TeamConfig_fields /\ loc e = [f]) /\
    (e ∈ errors_of (Model_validate kw) ->
     exists f below, f ∈ Model_fields /\ loc e = f :: below /\
                     (f <> "parameters" -> below = [])) /\
    (e ∈ errors_of (AgentConfig_validate kw) ->
     exists f below, f ∈ AgentConfig_fields /\ loc e = f :: below /\
                     (f <> "model" -> below = [])).
Proof.
  intros kw e. split; [| split].
  - rewrite TeamConfig_validate_errors_of, elem_of_app.
    unfold TeamConfig_fields.
    intros [H | H];
      [ apply required_str_loc in H | apply optional_str_loc in H ];
      eexists; (split; [| exact H]); rewrite !elem_of_cons; auto.
  - intros H. apply Model_validate_loc in H as (g & Hg & Hloc).
    exists g, []. auto.
  - rewrite AgentConfig_validate_errors_of, !elem_of_app.
    unfold AgentConfig_fields.
    intros [H | [H | H]].
    + apply required_str_loc in H.
      exists "name", []. split; [rewrite !elem_of_cons; auto | auto].
    + apply required_Model_loc in H.
      destruct H as [H | (g & _ & H)].
      * exists "model", []. split; [rewrite !elem_of_cons; auto |].
        split; [exact H | intros Hne; reflexivity].
      * exists "model", [g]. split; [rewrite !elem_of_cons; auto |].
        split; [exact H | intros Hne; contradiction Hne; reflexivity].
    + apply optional_str_loc in H.
      exists "instructions", []. split; [rewrite !elem_of_cons; auto | auto].
Qed.

Lemma X7_errors_at_or_below_declared_fields_witness :
  (mkErr ["description"] string_type
     ∈ errors_of (TeamConfig_validate kw_team_bad_description) /\
   exists f, f ∈ TeamConfig_fields /\ [ "description" ] = [f]) /\
  (mkErr ["provider"] missing ∈ errors_of (Model_validate kw_model_only_version) /\
   exists f below, f ∈ Model_fields /\ [ "provider" ] = f :: below /\
                   (f <> "parameters" -> below = [])) /\
  (mkErr ["model"; "provider"] missing
     ∈ errors_of (AgentConfig_validate kw_agent_all_wrong) /\
   exists f below, f ∈ AgentConfig_fields /\
                   [ "model"; "provider" ] = f :: below /\
                   (f <> "model" -> below = [])).
Proof.
  assert (Hin : forall (x : ErrorDetail) (l : list ErrorDetail),
             In x l -> x ∈ l).
  { intros x l. apply list_elem_of_In. }
  split; [| split].
  - split; [apply Hin; vm_compute; auto |].
    apply (proj1 (X7_errors_at_or_below_declared_fields kw_team_bad_description
                    (mkErr ["description"] string_type))).
    apply Hin; vm_compute; auto.
  - split; [apply Hin; vm_compute; auto |].
    apply (proj1 (proj2 (X7_errors_at_or_below_declared_fields
                    kw_model_only_version (mkErr ["provider"] missing)))).
    apply Hin; vm_compute; auto.
  - split; [apply Hin; vm_compute; auto |].
    apply (proj2 (proj2 (X7_errors_at_or_below_declared_fields
                    kw_agent_all_wrong (mkErr ["model"; "provider"] missing)))).
    apply Hin; vm_compute; auto.
Defined.

(** X8: a missing required field is always reported as missing,
    whatever is wrong with the other fields: validation does not stop
    at the first error, so several missing fields are reported
    together.  This holds for the required fields of all five models. *)
Theorem X8_missing_required_field_reported :
  forall (kw : gmap string pyval) (f : string),
    kw !! f = None ->
    (f ∈ ["provider"; "name"] ->
     mkErr [f] missing ∈ errors_of (Model_validate kw)) /\
    (f ∈ ["name"; "model"] ->
     mkErr [f] missing ∈ errors_of (AgentConfig_validate kw)) /\
    (f = "name" ->
     mkErr [f] missing ∈ errors_of (TeamConfig_validate kw)) /\
    (f ∈ ["id"; "name"] ->
     mkErr [f] missing ∈ errors_of (CreateTeamResponse_validate kw)) /\
    (f = "id" ->
     mkErr [f] missing ∈ errors_of (AddAgentResponse_validate kw)).
Proof.
  intros kw f Hf.
  assert (Hs : mkErr [f] missing ∈ errors_of (required_str kw f)).
  { rewrite required_str_missing by exact Hf. apply list_elem_of_singleton.
    reflexivity. }
  assert (Hm : mkErr [f] missing ∈ errors_of (required_Model kw f)).
  { unfold required_Model. rewrite Hf. apply list_elem_of_singleton.
    reflexivity. }
  repeat split.
  - rewrite Model_validate_errors_of, !elem_of_cons, elem_of_nil, !elem_of_app.
    intros [-> | [-> | []]]; auto.
  - rewrite AgentConfig_validate_errors_of, !elem_of_cons, elem_of_nil,
            !elem_of_app.
    intros [-> | [-> | []]]; auto.
  - intros ->. rewrite TeamConfig_validate_errors_of, elem_of_app. auto.
  - rewrite CreateTeamResponse_validate_errors_of, !elem_of_cons, elem_of_nil,
            !elem_of_app.
    intros [-> | [-> | []]]; auto.
  - intros ->. rewrite AddAgentResponse_validate_errors_of. exact Hs.
Qed.

Lemma X8_missing_required_field_reported_witness :
  kw_model_only_version !! "provider" = None /\
  kw_model_only_version !! "name" = None /\
  mkErr ["provider"] missing ∈ errors_of (Model_validate kw_model_only_version) /\
  mkErr ["name"] missing ∈ errors_of (Model_validate kw_model_only_version).
Proof.
  assert (Hin : forall (x : string) (l : list string), In x l -> x ∈ l).
  { intros x l. apply list_elem_of_In. }
  split; [reflexivity |]. split; [reflexivity |]. split.
  - apply (proj1 (X8_missing_required_field_reported
                    kw_model_only_version "provider" eq_refl)).
    apply Hin; simpl; auto.
  - apply (proj1 (X8_missing_required_field_reported
                    kw_model_only_version "name" eq_refl)).
    apply Hin; simpl; auto.
Defined.

(** ** The response models *)

(** X9: a body decodes as a [CreateTeamResponse] exactly when [id] and
    [name] are present as strings and [created_at] is absent, [None] or
    a string; it decodes as an [AddAgentResponse] exactly when [id] is
    present as a string. *)
Theorem X9_response_models_accept :
  forall kw : gmap string pyval,
    succeeds (CreateTeamResponse_validate kw)
      = present_as is_str kw "id" && present_as is_str kw "name"
        && absent_or is_str kw "created_at" /\
    succeeds (AddAgentResponse_validate kw) = present_as is_str kw "id".
Proof.
  intros kw. split.
  - rewrite <- !required_str_succeeds, <- optional_str_succeeds.
    unfold CreateTeamResponse_validate.
    destruct (required_str kw "id"), (required_str kw "name"),
             (optional_str kw "created_at"); reflexivity.
  - rewrite <- required_str_succeeds.
    unfold AddAgentResponse_validate.
    destruct (required_str kw "id"); reflexivity.
Qed.

(** X10: a decoded [CreateTeamResponse] carries the [id] and [name]
    strings of the body, not a default, and the same body decodes as an
    [AddAgentResponse] with the same [id]. *)
Theorem X10_CreateTeamResponse_keeps_id :
  forall (kw : gmap string pyval) (r : CreateTeamResponse),
    CreateTeamResponse_validate kw = inr r ->
    kw !! "id" = Some (PyStr (CreateTeamResponse_id r)) /\
    kw !! "name" = Some (PyStr (CreateTeamResponse_name r)) /\
    dump_optional_str (CreateTeamResponse_created_at r)
      = with_default kw "created_at" /\
    AddAgentResponse_validate kw
      = inr (mkAddAgentResponse (CreateTeamResponse_id r)).
Proof.
  intros kw r. unfold CreateTeamResponse_validate, AddAgentResponse_validate.
  destruct (required_str kw "id") eqn:E1,
           (required_str kw "name") eqn:E2,
           (optional_str kw "created_at") eqn:E3;
    intros H; inversion H; subst r; clear H. simpl.
  split; [apply required_str_value; exact E1 |].
  split; [apply required_str_value; exact E2 |].
  split; [apply optional_str_value; exact E3 | reflexivity].
Qed.

Lemma X10_CreateTeamResponse_keeps_id_witness :
  CreateTeamResponse_validate created_body_with_time
    = inr (mkCreateTeamResponse "team_123" "Ops" (Some "2024-01-01T00:00:00Z")) /\
  created_body_with_time !! "id" = Some (PyStr "team_123") /\
  created_body_with_time !! "name" = Some (PyStr "Ops") /\
  dump_optional_str (Some "2024-01-01T00:00:00Z")
    = with_default created_body_with_time "created_at" /\
  AddAgentResponse_validate created_body_with_time
    = inr (mkAddAgentResponse "team_123").
Proof.
  split; [reflexivity |].
  apply (X10_CreateTeamResponse_keeps_id created_body_with_time
           (mkCreateTeamResponse "team_123" "Ops" (Some "2024-01-01T00:00:00Z"))).
  reflexivity.
Defined.

(** * Further properties of the client functions *)

(** X11: [add_agent] builds the same headers as [create_team] for every
    [api_key]: none for [None], and exactly [Authorization: Bearer k]
    for a non-empty key [k]; base URL, team id, configuration and
    network play no part. *)
Theorem X11_add_agent_authorization_header :
  forall (base_url base_url' team_id : string) (ac : AgentConfig)
         (tc : TeamConfig) (api_key : option string) (net net' : Network),
    let hdrs k := headers (f_locals (add_agent base_url team_id ac k net)) in
    hdrs api_key
      = headers (f_locals (create_team base_url' tc api_key net')) /\
    hdrs None = ∅ /\
    (forall c k, hdrs (Some (String c k))
                 = {["Authorization" := "Bearer " +:+ String c k]}).
Proof.
  intros base_url base_url' team_id ac tc api_key net net' hdrs. subst hdrs.
  cbv beta. split; [| split].
  - rewrite add_agent_unfold, create_team_unfold. reflexivity.
  - reflexivity.
  - intros c k. reflexivity.
Qed.

(** X12: the exception either function raises is determined by
    [base_url] alone.  In particular the message of [add_agent] is the
    same for every [team_id] (the source writes [{{team_id}}], which
    yields the literal text [{team_id}]), and neither message shows the
    configuration or the API key. *)
Theorem X12_exception_depends_on_base_url_only :
  forall (base_url team_id team_id' : string) (tc tc' : TeamConfig)
         (ac ac' : AgentConfig) (k k' : option string) (net net' : Network),
    outcome (create_team base_url tc k net)
      = outcome (create_team base_url tc' k' net') /\
    outcome (add_agent base_url team_id ac k net)
      = outcome (add_agent base_url team_id' ac' k' net') /\
    outcome (add_agent base_url team_id ac k net)
      <> outcome (create_team base_url tc k net).
Proof.
  intros. rewrite !add_agent_unfold, !create_team_unfold. simpl.
  split; [reflexivity |]. split; [reflexivity |].
  intros H. simplify_eq.
Qed.

(** X13: whatever header either function builds is the bearer header of
    the key it was given: a header named [h] with value [v] in the
    built headers means [h] is [Authorization], the key is a non-empty
    string [k], and [v] is [Bearer k]. *)
Theorem X13_headers_only_bearer_of_key :
  forall (base_url team_id : string) (tc : TeamConfig) (ac : AgentConfig)
         (api_key : option string) (net : Network) (h v : string),
    headers (f_locals (create_team base_url tc api_key net)) !! h = Some v \/
    headers (f_locals (add_agent base_url team_id ac api_key net)) !! h = Some v ->
    h = "Authorization" /\
    exists k, api_key = Some k /\ k <> EmptyString /\ v = "Bearer " +:+ k.
Proof.
  intros base_url team_id tc ac api_key net h v.
  rewrite create_team_unfold, add_agent_unfold. simpl.
  intros H. assert (H' : (if truthy api_key
                          then {["Authorization" := "Bearer " +:+ fmt api_key]}
                          else (∅ : gmap string string)) !! h = Some v)
    by (destruct H; assumption).
  clear H. destruct api_key as [[| c k] |]; simpl in H';
    try (rewrite lookup_empty in H'; discriminate H').
  apply lookup_singleton_Some in H' as [<- <-].
  split; [reflexivity |].
  exists (String c k). repeat split. discriminate.
Qed.

Lemma X13_headers_only_bearer_of_key_witness :
  (headers (f_locals (create_team localhost ops_team (Some "X") net_created))
     !! "Authorization" = Some "Bearer X" \/
   headers (f_locals (add_agent localhost "team_123" helper_agent (Some "X")
                        net_created))
     !! "Authorization" = Some "Bearer X") /\
  "Authorization" = "Authorization" /\
  exists k, Some "X" = Some k /\ k <> EmptyString /\ "Bearer X" = "Bearer " +:+ k.
Proof.
  split; [left; reflexivity |].
  apply (X13_headers_only_bearer_of_key localhost "team_123" ops_team
           helper_agent (Some "X") net_created "Authorization" "Bearer X").
  left; reflexivity.
Defined.
